(** * The dashboard pipeline of [streamlit_app.py]

    A shallow embedding of the data pipeline of the dashboard script:
    [load_data] (the recency column), the dynamic filter ([filtered_df],
    [filtered_customer_df]), the key metrics ([total_customers],
    [total_revenue], [avg_order_value], [churn_rate]), the top category
    ([Series.mode()[0]]), the two group-by frames handed to the charts
    ([heatmap_data], [treemap_data]), the defaults of the sidebar widgets
    and the churn risk column.

    Modelling conventions.
    - A DataFrame is the list of its rows, in row order. [load_data] is the
      load of a file stored with the default [RangeIndex], where the label of
      a row is its position, on timestamps whose differences fit a
      [timedelta64[ns]]; [load_data_indexed] carries the integer index labels
      that [read_parquet] restores and the [OverflowError] of line 13.
    - A [datetime64[ns]] value is the integer number of nanoseconds since the
      epoch; a calendar date is the number of days since the epoch.
    - [payment_value] and the metrics computed from it are exact rationals:
      the rounding of [float64] is not modelled, [NaN] is.
    - A missing value ([NaN]) of an integer-valued column is [None].
    - A Python exception is a value of [PyResult]. *)

From Stdlib Require Import ZArith QArith.
From stdpp Require Import base decidable option list strings sorting.

Local Open Scope Z_scope.

(** ** Python values *)

Inductive PyExc : Type :=
  | ZeroDivisionError
  | KeyError
  | OverflowError.

Inductive PyResult (A : Type) : Type :=
  | Ok (a : A)
  | Raise (e : PyExc).
Arguments Ok {A} a.
Arguments Raise {A} e.

(** A Python [float]: a number or [nan]. *)
Inductive PyFloat : Type :=
  | Finite (q : Q)
  | NaN.

(** ** The tables *)

(** A row of the orders parquet file. *)
Record RawOrder : Type := mkRawOrder {
  raw_customer_unique_id : string;
  raw_order_purchase_timestamp : Z;
  raw_product_category : string;
  raw_product_category_name : string;
  raw_payment_value : Q
}.

(** A row of [df] as [load_data] returns it: the file's columns and the
    [recency] column added on line 13. *)
Record Order : Type := mkOrder {
  customer_unique_id : string;
  order_purchase_timestamp : Z;
  product_category : string;
  product_category_name : string;
  payment_value : Q;
  recency : option Z
}.

(** A row of [customer-segmentation.csv]. *)
Record Customer : Type := mkCustomer {
  cust_customer_unique_id : string;
  segment : string;
  frequency : Z;
  total_spending : Q
}.

(** The widget state the filter reads: [date_range] (two calendar dates),
    the category multiselect, the segment multiselect and the slider. *)
Record Selection : Type := mkSelection {
  date_range : Z * Z;
  sel_product_category : list string;
  selected_segment : list string;
  churn_threshold : Z
}.

(** ** Time *)

Definition ns_per_day : Z := 86400 * 1000000000.

(** [pd.to_datetime] of a calendar date: midnight of that day. *)
Definition to_datetime (date : Z) : Z := date * ns_per_day.

(** [Series.dt.date]: the calendar date of a timestamp. *)
Definition dt_date (ts : Z) : Z := ts `div` ns_per_day.

(** [Series.dt.days]: the days component of a timedelta. *)
Definition dt_days (delta : Z) : Z := delta `div` ns_per_day.

(** ** Filter Data Dynamically (lines 66-69) *)

Definition in_date_range (dr : Z * Z) (r : Order) : Prop :=
  to_datetime dr.1 ≤ order_purchase_timestamp r ∧
  order_purchase_timestamp r ≤ to_datetime dr.2.

Global Instance in_date_range_dec dr r : Decision (in_date_range dr r).
Proof. unfold in_date_range. apply _. Defined.

(** [Series.isin(values)]. *)
Definition isin (values : list string) (x : string) : Prop := x ∈ values.

Global Instance isin_dec values x : Decision (isin values x).
Proof. unfold isin. apply _. Defined.

Definition filtered_df (df : list Order) (sel : Selection) : list Order :=
  let filtered_df := filter (in_date_range (date_range sel)) df in
  filter (λ r, isin (sel_product_category sel) (product_category r)) filtered_df.

Definition filtered_customer_df (customer_df : list Customer) (sel : Selection)
    : list Customer :=
  filter (λ c, isin (selected_segment sel) (segment c)) customer_df.

(** ** Group-by

    [DataFrame.groupby(key)] with the default [sort=True]: one group per
    distinct key, the groups in ascending key order, each group holding the
    rows of its key in frame order. *)

Section groupby.
Context {A K : Type} `{EqDecision K}.
Context (R : relation K) `{!∀ x y, Decision (R x y)}.

Definition group_keys (key : A → K) (rows : list A) : list K :=
  merge_sort R (remove_dups (key <$> rows)).

Definition group_rows (key : A → K) (rows : list A) (k : K) : list A :=
  filter (λ r, key r = k) rows.

Definition groupby (key : A → K) (rows : list A) : list (K * list A) :=
  (λ k, (k, group_rows key rows k)) <$> group_keys key rows.

(** [groupby(key)[col].agg()] as a Series: index and values. *)
Definition groupby_agg {B : Type} (key : A → K) (agg : list A → B)
    (rows : list A) : list (K * B) :=
  prod_map id agg <$> groupby key rows.
End groupby.

(** ** Reductions of a column *)

(** [Series.max()] of a timestamp column; [NaT] ([None]) when empty. *)
Definition series_max (xs : list Z) : option Z :=
  match xs with
  | [] => None
  | x :: xs => Some (foldr Z.max x xs)
  end.

(** [Series.sum()]: [0.0] when empty. *)
Definition series_sum (xs : list Q) : Q := foldr Qplus 0%Q xs.

(** [Series.mean()]: the sum over the count, [nan] when the count is 0. *)
Definition series_mean (xs : list Q) : PyFloat :=
  let count := length xs in
  if decide (count = 0%nat) then NaN
  else Finite (series_sum xs / inject_Z (Z.of_nat count))%Q.

(** [Series.nunique()]. *)
Definition nunique (xs : list string) : nat := length (remove_dups xs).

(** The number of occurrences of [x] in a column. *)
Definition value_count (xs : list string) (x : string) : nat :=
  length (filter (λ y, y = x) xs).

(** [Series.mode()]: the values with the highest count, sorted. *)
Definition series_mode (xs : list string) : list string :=
  let uniques := remove_dups xs in
  let max_count := max_list (value_count xs <$> uniques) in
  merge_sort String.le (filter (λ x, value_count xs x = max_count) uniques).

(** [s[0]] on a Series with the default index. *)
Definition series_getitem0 {A : Type} (s : list A) : PyResult A :=
  match s !! 0%nat with
  | Some x => Ok x
  | None => Raise KeyError
  end.

(** ** Load Data (lines 8-16) *)

Definition max_purchase_date (df : list RawOrder) : option Z :=
  series_max (raw_order_purchase_timestamp <$> df).

(** [df.groupby('customer_unique_id')['order_purchase_timestamp'].max()
    .reset_index()]: one row per customer, in ascending customer id, under a
    fresh [RangeIndex]. *)
Definition last_purchase_date (df : list RawOrder) : list (string * option Z) :=
  groupby_agg String.le raw_customer_unique_id
    (λ g, series_max (raw_order_purchase_timestamp <$> g)) df.

(** [(max_purchase_date - last_purchase_date[...]).dt.days]: a Series with
    one entry per customer, labelled by its position. *)
Definition recency_series (df : list RawOrder) : list (option Z) :=
  (λ p, m ← max_purchase_date df; l ← p.2; Some (dt_days (m - l)))
    <$> last_purchase_date df.

Definition with_recency (r : RawOrder) (rec : option Z) : Order :=
  {| customer_unique_id := raw_customer_unique_id r;
     order_purchase_timestamp := raw_order_purchase_timestamp r;
     product_category := raw_product_category r;
     product_category_name := raw_product_category_name r;
     payment_value := raw_payment_value r;
     recency := rec |}.

(** [df['recency'] = series]: the assignment aligns the Series on the index
    of [df]; the row labelled [i] receives the entry labelled [i], and [NaN]
    when the Series has no such label. *)
Definition setitem_recency (df : list RawOrder) (series : list (option Z))
    : list Order :=
  imap (λ i r, with_recency r (mjoin (series !! i))) df.

Definition load_data (df : list RawOrder) : list Order :=
  setitem_recency df (recency_series df).

(** The largest [timedelta64[ns]], an int64 number of nanoseconds. *)
Definition timedelta_max : Z := 2 ^ 63 - 1.

(** The subtraction [max_purchase_date - last_purchase_date[...]] of line 13
    is checked: it raises [OverflowError] when the difference of an entry
    does not fit a [timedelta64[ns]]. *)
Definition timedelta_overflows (df : list RawOrder) (p : string * option Z)
    : Prop :=
  match max_purchase_date df, p.2 with
  | Some m, Some l => timedelta_max < m - l
  | _, _ => False
  end.

Global Instance timedelta_overflows_dec df p : Decision (timedelta_overflows df p).
Proof.
  unfold timedelta_overflows.
  destruct (max_purchase_date df), (p.2); apply _.
Defined.

Definition recency_series_checked (df : list RawOrder)
    : PyResult (list (option Z)) :=
  if decide (Exists (timedelta_overflows df) (last_purchase_date df))
  then Raise OverflowError
  else Ok (recency_series df).

(** [series.reindex(df.index)] at one label: the Series of line 13 is
    labelled 0, 1, ... (the fresh [RangeIndex] of [reset_index]); any other
    label finds no entry. *)
Definition series_at (series : list (option Z)) (label : Z) : option Z :=
  if decide (0 ≤ label) then mjoin (series !! Z.to_nat label) else None.

(** [load_data] on a frame given with the integer index labels restored by
    [read_parquet], a label beside each row: [df['recency'] = series] gives
    the row labelled [l] the entry labelled [l] of the Series. *)
Definition load_data_indexed (frame : list (Z * RawOrder))
    : PyResult (list (Z * Order)) :=
  match recency_series_checked frame.*2 with
  | Ok series =>
      Ok ((λ p, (p.1, with_recency p.2 (series_at series p.1))) <$> frame)
  | Raise e => Raise e
  end.

(** A file stored with the default [RangeIndex]. *)
Definition default_index (df : list RawOrder) : list (Z * RawOrder) :=
  imap (λ i r, (Z.of_nat i, r)) df.

(** ** Dynamic Key Metrics (lines 72-75) *)

Definition total_customers (filtered_df : list Order) : nat :=
  nunique (customer_unique_id <$> filtered_df).

Definition total_revenue (filtered_df : list Order) : Q :=
  series_sum (payment_value <$> filtered_df).

Definition avg_order_value (filtered_df : list Order) : PyFloat :=
  series_mean (payment_value <$> filtered_df).

(** The mask [filtered_df['recency'] > churn_threshold]; a comparison with
    [NaN] is false. *)
Definition recency_gt (churn_threshold : Z) (r : Order) : Prop :=
  match recency r with
  | Some d => churn_threshold < d
  | None => False
  end.

Global Instance recency_gt_dec t r : Decision (recency_gt t r).
Proof. unfold recency_gt. destruct (recency r); apply _. Defined.

(** The row count of the masked frame, [shape[0]]. *)
Definition churned_rows (filtered_df : list Order) (churn_threshold : Z) : nat :=
  length (filter (recency_gt churn_threshold) filtered_df).

(** True division of two Python ints. *)
Definition int_truediv (a b : nat) : PyResult Q :=
  if decide (b = 0%nat) then Raise ZeroDivisionError
  else Ok (inject_Z (Z.of_nat a) / inject_Z (Z.of_nat b))%Q.

Definition churn_rate (filtered_df : list Order) (churn_threshold : Z)
    : PyResult Q :=
  match int_truediv (churned_rows filtered_df churn_threshold)
                    (total_customers filtered_df) with
  | Ok q => Ok (q * 100)%Q
  | Raise e => Raise e
  end.

(** ** Product Analysis (lines 113-124) *)

(** [filtered_df['product_category'].mode()[0]]. *)
Definition top_category (filtered_df : list Order) : PyResult string :=
  series_getitem0 (series_mode (product_category <$> filtered_df)).

(** The "Top Category" card as the script reaches it: the key metrics of
    lines 72-75 are computed at top level, before the tab branch, so line
    113 runs only when line 75 has not raised. *)
Definition product_analysis_top_category (filtered_df : list Order)
    (churn_threshold : Z) : PyResult string :=
  match churn_rate filtered_df churn_threshold with
  | Ok _ => top_category filtered_df
  | Raise e => Raise e
  end.

(** The order of the two-level group keys (date, category). *)
Definition date_category_le (a b : Z * string) : Prop :=
  a.1 < b.1 ∨ (a.1 = b.1 ∧ String.le a.2 b.2).

Global Instance date_category_le_dec a b : Decision (date_category_le a b).
Proof. unfold date_category_le. apply _. Defined.

Definition date_category (r : Order) : Z * string :=
  (dt_date (order_purchase_timestamp r), product_category r).

(** [filtered_df.groupby([date, 'product_category']).size()]. *)
Definition activity_sizes (filtered_df : list Order) : list ((Z * string) * nat) :=
  groupby_agg date_category_le date_category length filtered_df.

(** [s[k]] on a Series with a unique index; [None] when the label is absent. *)
Fixpoint series_lookup {K V : Type} `{EqDecision K} (s : list (K * V)) (k : K)
    : option V :=
  match s with
  | [] => None
  | (k', v) :: s => if decide (k' = k) then Some v else series_lookup s k
  end.

(** A frame of counts with a date index and one column per category; a
    missing cell ([NaN]) is [None]. *)
Record Heatmap : Type := mkHeatmap {
  hm_index : list Z;
  hm_columns : list string;
  hm_values : list (list (option nat))
}.

(** [Series.unstack()] of a Series under a two-level index: the last level
    becomes the columns; a (row, column) pair without entry is left missing. *)
Definition unstack (s : list ((Z * string) * nat)) : Heatmap :=
  let index := merge_sort Z.le (remove_dups ((λ e, e.1.1) <$> s)) in
  let columns := merge_sort String.le (remove_dups ((λ e, e.1.2) <$> s)) in
  {| hm_index := index;
     hm_columns := columns;
     hm_values := (λ d, (λ c, series_lookup s (d, c)) <$> columns) <$> index |}.

Definition heatmap_data (filtered_df : list Order) : Heatmap :=
  unstack (activity_sizes filtered_df).

(** [filtered_df.groupby('product_category')['payment_value'].sum()
    .reset_index()]. *)
Definition treemap_data (filtered_df : list Order) : list (string * Q) :=
  groupby_agg String.le product_category
    (λ g, series_sum (payment_value <$> g)) filtered_df.

(** Sums over the rows and over the columns of the frame, skipping missing
    cells ([DataFrame.sum(axis=1)] and [DataFrame.sum(axis=0)]). *)
Definition nansum (cells : list (option nat)) : nat :=
  sum_list (default 0%nat <$> cells).

Definition row_sums (hm : Heatmap) : list nat := nansum <$> hm_values hm.

Definition column_sums (hm : Heatmap) : list nat :=
  imap (λ j _, nansum ((λ row, mjoin (row !! j)) <$> hm_values hm))
       (hm_columns hm).

(** ** Counts and sums the statements refer to *)

Definition orders_on (filtered_df : list Order) (d : Z) (c : string) : nat :=
  length (filter (λ r, date_category r = (d, c)) filtered_df).

Definition orders_on_date (filtered_df : list Order) (d : Z) : nat :=
  length (filter (λ r, dt_date (order_purchase_timestamp r) = d) filtered_df).

Definition orders_of_category (filtered_df : list Order) (c : string) : nat :=
  length (filter (λ r, product_category r = c) filtered_df).

Definition revenue_of_category (filtered_df : list Order) (c : string) : Q :=
  series_sum (payment_value <$> filter (λ r, product_category r = c) filtered_df).

(** The calendar dates and the categories of the rows of a frame. *)
Definition order_dates (filtered_df : list Order) : list Z :=
  (λ r, dt_date (order_purchase_timestamp r)) <$> filtered_df.

Definition order_categories (filtered_df : list Order) : list string :=
  product_category <$> filtered_df.

(** A cell of the unstacked frame: the count, missing when there is none. *)
Definition count_cell (n : nat) : option nat :=
  if decide (n = 0%nat) then None else Some n.

(** Every cell of a (date, category) pair without order holds 0. *)
Definition absent_cells_zero (filtered_df : list Order) (hm : Heatmap) : Prop :=
  ∀ (i j : nat) (d : Z) (c : string),
    hm_index hm !! i = Some d → hm_columns hm !! j = Some c →
    orders_on filtered_df d c = 0%nat →
    ∃ row, hm_values hm !! i = Some row ∧ row !! j = Some (Some 0%nat).

(** Descending order of revenue on the rows of a treemap frame. *)
Definition revenue_ge (a b : string * Q) : Prop := (b.2 <= a.2)%Q.

(** ** The sidebar (lines 25-63) *)

(** [Series.unique()]: the distinct values, in order of first appearance. *)
Fixpoint unique (xs : list string) : list string :=
  match xs with
  | [] => []
  | x :: xs => x :: filter (λ y, y ≠ x) (unique xs)
  end.

Definition default_segments : list string :=
  ["Loyal Customers"; "Potential Loyalists"].

(** The dict [segment_groups], in insertion order. *)
Definition segment_groups : list (string * list string) :=
  [ ("High Value", ["Loyal Customers"; "Potential Loyalists"]);
    ("At Risk", ["At Risk Customers"; "Hibernating Customers"]);
    ("Inactive", ["Lost Customers"]) ].

(** [[seg for group in segment_groups.values() for seg in group]]. *)
Definition grouped_segments : list string :=
  group ← segment_groups.*2; seg ← group; [seg].

Definition segment_options (customer_df : list Customer) : list string :=
  unique (segment <$> customer_df).

(** [[seg for seg in default_segments if seg in segment_options]]. *)
Definition valid_default_segments (customer_df : list Customer) : list string :=
  filter (λ seg, seg ∈ segment_options customer_df) default_segments.

(** The [default] argument of the segment multiselect: an empty list is
    falsy, and then the first two options are taken. *)
Definition segment_default (customer_df : list Customer) : list string :=
  match valid_default_segments customer_df with
  | [] => take 2 grouped_segments
  | valid => valid
  end.

(** [Series.min()] of a timestamp column; [NaT] ([None]) when empty. *)
Definition series_min (xs : list Z) : option Z :=
  match xs with
  | [] => None
  | x :: xs => Some (foldr Z.min x xs)
  end.

(** The default of the date picker, [[df[...].min(), df[...].max()]]: the
    widget keeps the calendar dates of the two timestamps. No range is
    modelled for an empty frame, where both are [NaT]. *)
Definition default_date_range (df : list Order) : option (Z * Z) :=
  lo ← series_min (order_purchase_timestamp <$> df);
  hi ← series_max (order_purchase_timestamp <$> df);
  Some (dt_date lo, dt_date hi).

(** ** Churn Risk Analysis (lines 101-102) *)

(** [lambda x: "High Risk" if x > churn_threshold else "Low Risk"]. *)
Definition churn_risk (churn_threshold : Z) (x : option Z) : string :=
  match x with
  | Some d => if decide (churn_threshold < d) then "High Risk" else "Low Risk"
  | None => "Low Risk"
  end.

(** The column [filtered_df["churn_risk"]]. *)
Definition churn_risk_column (filtered_df : list Order) (churn_threshold : Z)
    : list string :=
  (λ r, churn_risk churn_threshold (recency r)) <$> filtered_df.

(** ** More notions the statements refer to *)

(** The sorted distinct customer ids of the file. *)
Definition sorted_customers (df : list RawOrder) : list string :=
  group_keys String.le raw_customer_unique_id df.

(** The recency of a customer: the days between the latest purchase of the
    data set and the latest purchase of the customer. *)
Definition customer_recency (df : list RawOrder) (c : string) : option Z :=
  m ← max_purchase_date df;
  l ← series_max (raw_order_purchase_timestamp <$>
                    group_rows raw_customer_unique_id df c);
  Some (dt_days (m - l)).


(** One order per customer, in ascending customer id. *)
Definition orders_sorted_customers : list RawOrder :=
  [ mkRawOrder "A" (to_datetime 19358) "electronics" "electronics" 100;
    mkRawOrder "B" (to_datetime 19723 + 5) "furniture_decor" "furniture_decor" 700;
    mkRawOrder "C" (to_datetime 19754 + 3600000000000) "health_beauty"
      "health_beauty" 20 ].

(** All orders carry the same timestamp. *)
Definition orders_one_timestamp : list RawOrder :=
  [ mkRawOrder "B" (to_datetime 19723) "electronics" "electronics" 100;
    mkRawOrder "A" (to_datetime 19723) "furniture_decor" "furniture_decor" 700;
    mkRawOrder "B" (to_datetime 19723) "health_beauty" "health_beauty" 20 ].


(** Two orders more than 2^63 nanoseconds apart. *)
Definition orders_far_apart : list RawOrder :=
  [ mkRawOrder "A" (- 2 ^ 62) "electronics" "electronics" 100;
    mkRawOrder "B" (2 ^ 62) "electronics" "electronics" 50 ].

(** A selection whose date range is the default one of
    [load_data orders_sorted_customers]. *)
Definition select_default_range : Selection :=
  {| date_range := (19358, 19754);
     sel_product_category := ["electronics"; "furniture_decor"; "health_beauty"];
     selected_segment := ["Loyal Customers"; "Potential Loyalists"];
     churn_threshold := 180 |}.

(** A selection whose date range ends before it starts. *)
Definition select_reversed_range : Selection :=
  {| date_range := (19754, 19358);
     sel_product_category := ["electronics"; "furniture_decor"; "health_beauty"];
     selected_segment := ["Loyal Customers"; "Potential Loyalists"];
     churn_threshold := 180 |}.

(** ** Sample data *)

(** Two orders of one customer, 2024-01-01 and 2024-02-01. *)
Definition orders_one_customer : list RawOrder :=
  [ mkRawOrder "A" (to_datetime 19723) "electronics" "electronics" 100;
    mkRawOrder "A" (to_datetime 19754) "electronics" "electronics" 50 ].

(** Three customers; the first two rows belong to the same one, whose last
    purchase is 2023-01-02, while the data set ends on 2024-02-01. *)
Definition orders_three_customers : list RawOrder :=
  [ mkRawOrder "A" (to_datetime 19358) "electronics" "electronics" 100;
    mkRawOrder "A" (to_datetime 19359) "electronics" "electronics" 50;
    mkRawOrder "B" (to_datetime 19358) "furniture_decor" "furniture_decor" 700;
    mkRawOrder "C" (to_datetime 19754) "health_beauty" "health_beauty" 20 ].

Definition select_electronics : Selection :=
  {| date_range := (19358, 19754);
     sel_product_category := ["electronics"];
     selected_segment := ["Loyal Customers"; "Potential Loyalists"];
     churn_threshold := 180 |}.

Definition select_no_category : Selection :=
  {| date_range := (19358, 19754);
     sel_product_category := [];
     selected_segment := ["Loyal Customers"; "Potential Loyalists"];
     churn_threshold := 180 |}.

(** Two categories with revenues 300 and 700, and two dates. *)
Definition view_two_categories : list Order :=
  [ mkOrder "A" (to_datetime 19723) "electronics" "electronics" 300 (Some 31);
    mkOrder "B" (to_datetime 19754) "furniture_decor" "furniture_decor" 700 (Some 0) ].

(** Two categories tie for the highest count. *)
Definition view_tied_categories : list Order :=
  [ mkOrder "A" (to_datetime 19723) "furniture_decor" "furniture_decor" 10 (Some 31);
    mkOrder "B" (to_datetime 19723) "electronics" "electronics" 20 (Some 31);
    mkOrder "C" (to_datetime 19754) "health_beauty" "health_beauty" 30 (Some 0);
    mkOrder "D" (to_datetime 19754) "furniture_decor" "furniture_decor" 40 (Some 0);
    mkOrder "E" (to_datetime 19754) "electronics" "electronics" 50 (Some 0) ].

(** ** Theorems *)

(** *** The filter *)

Section filter_facts.
Context {A : Type} (P : A → Prop) `{!∀ x, Decision (P x)}.

Lemma filter_idemp (l : list A) : filter P (filter P l) = filter P l.
Proof. by apply list_filter_filter_l. Qed.

Lemma filter_none (l : list A) : (∀ x, ¬ P x) → filter P l = [].
Proof.
  intros HP. induction l as [|x l IH]; [done|].
  rewrite filter_cons, decide_False by apply HP. done.
Qed.
End filter_facts.

(** C8: with an empty category selection the filtered orders frame is
    empty, whatever the date range is. *)
Theorem filtered_df_no_categories (df : list Order) (sel : Selection) :
  sel_product_category sel = [] → filtered_df df sel = [].
Proof.
  intros Hsel. unfold filtered_df. apply filter_none.
  intros r. unfold isin. rewrite Hsel. apply not_elem_of_nil.
Qed.

Lemma filtered_df_no_categories_witness :
  sel_product_category select_no_category = [] ∧
  filtered_df (load_data orders_three_customers) select_no_category = [].
Proof.
  split; [reflexivity|].
  apply (filtered_df_no_categories (load_data orders_three_customers)
           select_no_category).
  reflexivity.
Defined.

Lemma filtered_df_as_one_filter (df : list Order) (sel : Selection) :
  filtered_df df sel =
  filter (λ r, isin (sel_product_category sel) (product_category r) ∧
               in_date_range (date_range sel) r) df.
Proof. unfold filtered_df. apply list_filter_filter. Qed.

(** C9: filtering the filtered frames again with the same selection gives
    the same frames, for the orders and for the customer segments. *)
Theorem filter_idempotent (df : list Order) (customer_df : list Customer)
    (sel : Selection) :
  filtered_df (filtered_df df sel) sel = filtered_df df sel ∧
  filtered_customer_df (filtered_customer_df customer_df sel) sel =
    filtered_customer_df customer_df sel.
Proof.
  split.
  - rewrite !filtered_df_as_one_filter. apply filter_idemp.
  - unfold filtered_customer_df. apply filter_idemp.
Qed.

(** *** The recency column *)

Section group_keys_facts.
Context {A K : Type} `{EqDecision K}.
Context (R : relation K) `{!∀ x y, Decision (R x y)}.
Context (key : A → K).

Lemma group_keys_Permutation (rows : list A) :
  group_keys R key rows ≡ₚ remove_dups (key <$> rows).
Proof. apply merge_sort_Permutation. Qed.

Lemma elem_of_group_keys (rows : list A) (k : K) :
  k ∈ group_keys R key rows ↔ ∃ r, r ∈ rows ∧ key r = k.
Proof.
  rewrite group_keys_Permutation, elem_of_remove_dups, list_elem_of_fmap.
  split; [intros (r & -> & Hr)|intros (r & Hr & <-)]; eauto.
Qed.

Lemma NoDup_group_keys (rows : list A) : NoDup (group_keys R key rows).
Proof. rewrite group_keys_Permutation. apply NoDup_remove_dups. Qed.

Lemma length_group_keys (rows : list A) :
  length (group_keys R key rows) = length (remove_dups (key <$> rows)).
Proof. by rewrite group_keys_Permutation. Qed.

Lemma groupby_agg_fmap {B : Type} (agg : list A → B) (rows : list A) :
  groupby_agg R key agg rows =
  (λ k, (k, agg (group_rows key rows k))) <$> group_keys R key rows.
Proof.
  unfold groupby_agg, groupby. rewrite <- list_fmap_compose. done.
Qed.

Lemma groupby_agg_keys {B : Type} (agg : list A → B) (rows : list A) :
  (groupby_agg R key agg rows).*1 = group_keys R key rows.
Proof.
  rewrite groupby_agg_fmap, <- list_fmap_compose.
  apply list_fmap_id.
Qed.
End group_keys_facts.

Lemma length_recency_series (df : list RawOrder) :
  length (recency_series df) = nunique (raw_customer_unique_id <$> df).
Proof.
  unfold recency_series, last_purchase_date, nunique.
  rewrite length_fmap, groupby_agg_fmap, length_fmap.
  apply length_group_keys.
Qed.

(** The Series assigned on line 13 has one entry per customer: every row
    whose position is not below the number of customers is left without
    recency. *)
Lemma load_data_recency_missing (df : list RawOrder) (i : nat) (r : Order) :
  load_data df !! i = Some r →
  (nunique (raw_customer_unique_id <$> df) ≤ i)%nat →
  recency r = None.
Proof.
  unfold load_data, setitem_recency. rewrite list_lookup_imap.
  intros Hr Hi. destruct (df !! i) as [raw|]; simplify_eq/=.
  rewrite lookup_ge_None_2; [done|]. by rewrite length_recency_series.
Qed.

(** C1: on the two orders of one customer (2024-01-01 and 2024-02-01) the
    recency column of [load_data] is 0 on the first row and missing on the
    second one, where the customer's recency, 0, is expected on both. *)
Theorem load_data_recency_one_customer :
  recency <$> load_data orders_one_customer = [Some 0; None].
Proof. vm_compute. reflexivity. Qed.

(** With three customers the rows take the recencies of the customers in
    sorted order, whatever customer the row belongs to: the second row, of
    customer A, carries the recency of B, the third one, of B, that of C. *)
Example load_data_recency_three_customers :
  recency <$> load_data orders_three_customers =
  [Some 395; Some 396; Some 0; None].
Proof. vm_compute. reflexivity. Qed.

(** *** The key metrics *)

Lemma total_customers_nil_iff (v : list Order) :
  total_customers v = 0%nat ↔ v = [].
Proof.
  unfold total_customers, nunique. split; [|by intros ->].
  destruct v as [|r v]; [done|]. intros Hlen.
  apply length_zero_iff_nil in Hlen.
  assert (customer_unique_id r ∈ remove_dups (customer_unique_id <$> r :: v))
    as Hin by (apply elem_of_remove_dups; left).
  rewrite Hlen in Hin. by apply not_elem_of_nil in Hin.
Qed.

(** On a frame with customers the rate is the quotient times 100. *)
Lemma churn_rate_value (v : list Order) (t : Z) :
  total_customers v ≠ 0%nat →
  churn_rate v t =
    Ok (inject_Z (Z.of_nat (churned_rows v t)) /
        inject_Z (Z.of_nat (total_customers v)) * 100)%Q.
Proof.
  intros Hn. unfold churn_rate, int_truediv. by rewrite decide_False.
Qed.

Lemma churn_rate_no_customers (v : list Order) (t : Z) :
  total_customers v = 0%nat → churn_rate v t = Raise ZeroDivisionError.
Proof.
  intros Hn. unfold churn_rate, int_truediv. by rewrite decide_True.
Qed.

(** C2: on the empty frame, which has no customer, the division on line 75
    raises [ZeroDivisionError] for every threshold; no rate is computed. *)
Theorem churn_rate_empty_view (t : Z) :
  churn_rate [] t = Raise ZeroDivisionError.
Proof. reflexivity. Qed.

(** C3, as stated, fails on the empty frame: the mean is no number there,
    in particular not 0. *)
Lemma avg_order_value_empty_not_zero :
  ¬ ∃ q : Q, avg_order_value [] = Finite q ∧ (q == 0)%Q.
Proof. intros (q & Hq & _). discriminate Hq. Qed.

(** C3, amended: on a frame with rows the average order value is the total
    revenue over the number of rows; on the empty frame it is [nan], and no
    exception is raised. *)
Theorem avg_order_value_spec (v : list Order) :
  avg_order_value v =
    match v with
    | [] => NaN
    | _ :: _ => Finite (total_revenue v / inject_Z (Z.of_nat (length v)))%Q
    end.
Proof.
  unfold avg_order_value, total_revenue, series_mean.
  rewrite length_fmap. destruct v as [|r v]; [done|].
  by rewrite decide_False.
Qed.

(** C10: the two electronics orders of customer A both carry a recency
    above the threshold, so the filtered frame has one customer and a churn
    rate of 200. *)
Theorem churn_rate_can_exceed_100 :
  ∃ (df : list RawOrder) (sel : Selection) (q : Q),
    let view := filtered_df (load_data df) sel in
    (1 ≤ total_customers view)%nat ∧
    churn_rate view (churn_threshold sel) = Ok q ∧
    (100 < q)%Q.
Proof.
  exists orders_three_customers, select_electronics, (200 # 1)%Q.
  split; [|split].
  - vm_compute. done.
  - vm_compute. reflexivity.
  - reflexivity.
Qed.

(** *** The top category *)

(** On the empty frame [mode()] is an empty Series and [[0]] raises
    [KeyError]. *)
Lemma top_category_empty_view : top_category [] = Raise KeyError.
Proof. reflexivity. Qed.

(** C4: on the empty frame the script does not get to a top category: the
    division on line 75, which runs before the tab branch, raises
    [ZeroDivisionError] for every threshold; no [None] is produced. *)
Theorem product_analysis_top_category_empty_view (t : Z) :
  product_analysis_top_category [] t = Raise ZeroDivisionError.
Proof. reflexivity. Qed.

Section sorted_facts.
Context {K : Type} (R : relation K).

Lemma StronglySorted_strict (l : list K) :
  AntiSymm (=) R → StronglySorted R l → NoDup l →
  StronglySorted (strict R) l.
Proof.
  intros Hanti Hs. induction Hs as [|x l Hs IH Hx]; intros Hnd.
  - constructor.
  - apply NoDup_cons in Hnd as [Hxl Hnd]. constructor; [by apply IH|].
    apply Forall_forall. intros y Hy.
    split; [by eapply Forall_forall in Hx|].
    intros Hyx. assert (x = y) as ->.
    { apply (anti_symm R); [by eapply Forall_forall in Hx|done]. }
    done.
Qed.

Lemma StronglySorted_head_le (x y : K) (l : list K) :
  Reflexive R → StronglySorted R (x :: l) → y ∈ x :: l → R x y.
Proof.
  intros Hrefl Hs Hy. apply StronglySorted_cons in Hs as [Hx _].
  apply elem_of_cons in Hy as [->|Hy]; [done|].
  by eapply Forall_forall in Hx.
Qed.
End sorted_facts.

Lemma value_count_pos (xs : list string) (x : string) :
  (0 < value_count xs x)%nat ↔ x ∈ xs.
Proof.
  unfold value_count. split.
  - intros Hpos. destruct (filter (λ y, y = x) xs) as [|y l] eqn:Hf.
    + simpl in Hpos. lia.
    + assert (y ∈ filter (λ y, y = x) xs) as Hy by (rewrite Hf; left).
      apply list_elem_of_filter in Hy as [-> Hy]. done.
  - intros Hx.
    assert (x ∈ filter (λ y, y = x) xs) as Hy by (by apply list_elem_of_filter).
    destruct (filter (λ y, y = x) xs); [by apply not_elem_of_nil in Hy|].
    simpl. lia.
Qed.

Lemma value_count_le_max (xs : list string) (x : string) :
  (value_count xs x ≤ max_list (value_count xs <$> remove_dups xs))%nat.
Proof.
  destruct (decide (x ∈ xs)) as [Hx|Hx].
  - apply max_list_elem_of_le, list_elem_of_fmap.
    exists x. split; [done|]. by apply elem_of_remove_dups.
  - destruct (value_count xs x) eqn:Hc; [lia|].
    exfalso. apply Hx, value_count_pos. lia.
Qed.

Lemma elem_of_series_mode (xs : list string) (x : string) :
  x ∈ series_mode xs ↔
  x ∈ xs ∧ value_count xs x = max_list (value_count xs <$> remove_dups xs).
Proof.
  unfold series_mode.
  rewrite merge_sort_Permutation, list_elem_of_filter, elem_of_remove_dups.
  tauto.
Qed.

Lemma series_mode_nonempty (xs : list string) :
  xs ≠ [] → series_mode xs ≠ [].
Proof.
  intros Hxs Hnil.
  assert (value_count xs <$> remove_dups xs ≠ []) as Hcounts.
  { destruct xs as [|x xs]; [done|]. intros Hc.
    apply fmap_nil_inv in Hc.
    assert (x ∈ remove_dups (x :: xs)) as Hx by (apply elem_of_remove_dups; left).
    rewrite Hc in Hx. by apply not_elem_of_nil in Hx. }
  apply max_list_elem_of in Hcounts.
  apply list_elem_of_fmap in Hcounts as (x & Hmax & Hx).
  assert (x ∈ series_mode xs) as Hin.
  { rewrite elem_of_remove_dups in Hx. by apply elem_of_series_mode. }
  rewrite Hnil in Hin. by apply not_elem_of_nil in Hin.
Qed.

Lemma length_filter_key {A K : Type} `{EqDecision K} (f : A → K) (k : K)
    (l : list A) :
  length (filter (λ r, f r = k) l) = length (filter (λ y, y = k) (f <$> l)).
Proof.
  induction l as [|r l IH]; [done|].
  rewrite fmap_cons, !filter_cons. case_decide; simpl; by rewrite IH.
Qed.

Lemma orders_of_category_value_count (v : list Order) (c : string) :
  orders_of_category v c = value_count (product_category <$> v) c.
Proof. apply length_filter_key. Qed.

(** On a frame with rows line 75 does not raise and the card gets a
    category. *)
Lemma product_analysis_top_category_rows (v : list Order) (t : Z) :
  v ≠ [] → ∃ c, product_analysis_top_category v t = Ok c.
Proof.
  intros Hv. unfold product_analysis_top_category.
  rewrite churn_rate_value by (by rewrite total_customers_nil_iff).
  unfold top_category, series_getitem0.
  destruct (series_mode (product_category <$> v)) as [|c modes] eqn:Hmode;
    [|by exists c].
  apply series_mode_nonempty in Hmode; [done|]. by destruct v.
Qed.

(** C7: on a frame with rows the top category is a most frequent value of
    the [product_category] column, and among the values that tie for the
    highest count it is the first in string order. *)
Theorem top_category_most_frequent (v : list Order) :
  v ≠ [] →
  ∃ c : string,
    top_category v = Ok c ∧
    c ∈ product_category <$> v ∧
    (∀ c', orders_of_category v c' ≤ orders_of_category v c)%nat ∧
    (∀ c', orders_of_category v c' = orders_of_category v c → String.le c c').
Proof.
  intros Hv. set (xs := product_category <$> v).
  assert (xs ≠ []) as Hxs by (by destruct v).
  unfold top_category, series_getitem0. fold xs.
  destruct (series_mode xs) as [|c modes] eqn:Hmode.
  { by apply series_mode_nonempty in Hmode. }
  assert (c ∈ series_mode xs) as Hc by (rewrite Hmode; left).
  apply elem_of_series_mode in Hc as [Hcxs Hcmax].
  exists c. split; [done|]. split; [done|].
  setoid_rewrite orders_of_category_value_count. fold xs. split.
  - intros c'. rewrite Hcmax. apply value_count_le_max.
  - intros c' Htie.
    assert (c' ∈ series_mode xs) as Hc'.
    { apply elem_of_series_mode. split; [|congruence].
      apply value_count_pos. rewrite Htie. by apply value_count_pos. }
    rewrite Hmode in Hc'.
    eapply (StronglySorted_head_le String.le); [apply _| |done].
    rewrite <- Hmode. unfold series_mode. apply StronglySorted_merge_sort; apply _.
Qed.

Lemma top_category_most_frequent_witness :
  view_tied_categories ≠ [] ∧
  ∃ c : string,
    top_category view_tied_categories = Ok c ∧
    c ∈ product_category <$> view_tied_categories ∧
    (∀ c', orders_of_category view_tied_categories c' ≤
           orders_of_category view_tied_categories c)%nat ∧
    (∀ c', orders_of_category view_tied_categories c' =
           orders_of_category view_tied_categories c → String.le c c').
Proof.
  split; [discriminate|].
  apply (top_category_most_frequent view_tied_categories). discriminate.
Defined.

(** On the frame where two categories tie the first one in string order is
    returned. *)
Example top_category_tied :
  top_category view_tied_categories = Ok "electronics".
Proof. vm_compute. reflexivity. Qed.

(** *** The group-by frames of the charts *)

Section group_keys_sorted.
Context {A K : Type} `{EqDecision K}.
Context (R : relation K) `{!∀ x y, Decision (R x y)}.
Context `{!PartialOrder R, !Total R}.
Context (key : A → K).

Lemma group_keys_sorted (rows : list A) :
  StronglySorted (strict R) (group_keys R key rows).
Proof.
  apply StronglySorted_strict; [apply _| |apply NoDup_group_keys].
  apply StronglySorted_merge_sort; apply _.
Qed.
End group_keys_sorted.

(** C5, as stated, fails on the frame with revenues 300 and 700: the rows
    of [treemap_data] are not in descending order of revenue, the category
    with revenue 300 comes first. *)
Lemma treemap_data_not_descending :
  ¬ StronglySorted revenue_ge (treemap_data view_two_categories).
Proof.
  assert (treemap_data view_two_categories =
          [("electronics", 300%Q); ("furniture_decor", 700%Q)]) as ->
    by (vm_compute; reflexivity).
  intros Hs. apply StronglySorted_cons in Hs as [Hrev _].
  apply Forall_cons in Hrev as [Hrev _].
  unfold revenue_ge, Qle in Hrev. simpl in Hrev. lia.
Qed.

(** C5, amended: [treemap_data] has one row per category of the frame, in
    strictly ascending order of the category name, and the row of a category
    carries the sum of the payment values of its orders. *)
Theorem treemap_data_by_category (v : list Order) :
  StronglySorted (strict String.le) (treemap_data v).*1 ∧
  (∀ c, c ∈ (treemap_data v).*1 ↔ c ∈ product_category <$> v) ∧
  treemap_data v = (λ c, (c, revenue_of_category v c)) <$> (treemap_data v).*1.
Proof.
  unfold treemap_data. rewrite groupby_agg_keys. split; [|split].
  - apply group_keys_sorted; apply _.
  - intros c. rewrite elem_of_group_keys, list_elem_of_fmap.
    split; intros (r & H1 & H2); eauto.
  - by rewrite groupby_agg_fmap.
Qed.

Section counting_facts.
Context {A K : Type} `{EqDecision K}.

Lemma length_filter_pos (P : A → Prop) `{!∀ x, Decision (P x)} (l : list A) :
  (0 < length (filter P l))%nat ↔ ∃ x, x ∈ l ∧ P x.
Proof.
  split.
  - intros Hpos. destruct (filter P l) as [|x l'] eqn:Hf; [simpl in Hpos; lia|].
    assert (x ∈ filter P l) as Hx by (rewrite Hf; left).
    apply list_elem_of_filter in Hx as [HP Hx]. eauto.
  - intros (x & Hx & HP).
    assert (x ∈ filter P l) as Hin by (by apply list_elem_of_filter).
    destruct (filter P l); [by apply not_elem_of_nil in Hin|simpl; lia].
Qed.

Lemma sum_list_fmap_plus {B : Type} (a b : B → nat) (l : list B) :
  sum_list ((λ x, a x + b x)%nat <$> l) =
  (sum_list (a <$> l) + sum_list (b <$> l))%nat.
Proof. induction l as [|x l IH]; [done|]. csimpl. rewrite IH. lia. Qed.

Lemma sum_list_indicator (k : K) (ks : list K) :
  NoDup ks → k ∈ ks →
  sum_list ((λ k', if decide (k = k') then 1 else 0)%nat <$> ks) = 1%nat.
Proof.
  induction 1 as [|k0 ks Hk0 Hnd IH]; intros Hk.
  - by apply not_elem_of_nil in Hk.
  - simpl. case_decide as Heq.
    + subst k0. f_equal. clear IH Hk.
      induction ks as [|k1 ks IH]; [done|]. simpl.
      apply not_elem_of_cons in Hk0 as [Hne Hk0].
      apply NoDup_cons in Hnd as [_ Hnd].
      rewrite decide_False by done. by apply IH.
    + apply elem_of_cons in Hk as [?|Hk]; [done|]. by apply IH.
Qed.

(** The groups of a key partition the rows. *)
Lemma sum_group_sizes (g : A → K) (ks : list K) (rows : list A) :
  NoDup ks → (∀ r, r ∈ rows → g r ∈ ks) →
  sum_list ((λ k, length (filter (λ r, g r = k) rows)) <$> ks) = length rows.
Proof.
  intros Hnd. induction rows as [|r rows IH]; intros Hin.
  - clear. induction ks as [|k ks IHks]; [done|]. csimpl. exact IHks.
  - rewrite (list_fmap_ext _
      (λ k, (if decide (g r = k) then 1 else 0) +
            length (filter (λ r, g r = k) rows))%nat ks).
    + rewrite sum_list_fmap_plus, sum_list_indicator, IH; [done|..].
      * intros r' Hr'. apply Hin. by right.
      * done.
      * apply Hin. left.
    + intros _ k _. rewrite filter_cons. by destruct (decide (g r = k)).
Qed.

Lemma series_lookup_fmap {V : Type} (f : K → V) (ks : list K) (k : K) :
  series_lookup ((λ k, (k, f k)) <$> ks) k =
  if decide (k ∈ ks) then Some (f k) else None.
Proof.
  induction ks as [|k0 ks IH]; [done|]. csimpl.
  destruct (decide (k0 = k)) as [->|Hne].
  - rewrite decide_True; [done|left].
  - rewrite IH. apply decide_ext. rewrite elem_of_cons.
    split; [by right|]. by intros [->|?].
Qed.
End counting_facts.

Section heatmap_facts.
Context (v : list Order).

Local Abbreviation keys := (group_keys date_category_le date_category v).

Lemma activity_sizes_keys : (activity_sizes v).*1 = keys.
Proof. apply groupby_agg_keys. Qed.

Lemma elem_of_activity_keys (d : Z) (c : string) :
  (d, c) ∈ keys ↔ (0 < orders_on v d c)%nat.
Proof.
  unfold orders_on. rewrite length_filter_pos. apply elem_of_group_keys.
Qed.

Lemma series_lookup_activity_sizes (d : Z) (c : string) :
  series_lookup (activity_sizes v) (d, c) = count_cell (orders_on v d c).
Proof.
  unfold activity_sizes. rewrite groupby_agg_fmap, series_lookup_fmap.
  unfold count_cell. fold (orders_on v d c).
  destruct (decide ((d, c) ∈ keys)) as [Hin|Hin];
    rewrite elem_of_activity_keys in Hin.
  - rewrite decide_False by lia. done.
  - rewrite decide_True by lia. done.
Qed.

Lemma activity_dates : (λ e, e.1.1) <$> activity_sizes v = fst <$> keys.
Proof. by rewrite <- activity_sizes_keys, <- list_fmap_compose. Qed.

Lemma activity_categories : (λ e, e.1.2) <$> activity_sizes v = snd <$> keys.
Proof. by rewrite <- activity_sizes_keys, <- list_fmap_compose. Qed.

Lemma elem_of_hm_index (d : Z) :
  d ∈ hm_index (heatmap_data v) ↔ d ∈ order_dates v.
Proof.
  unfold heatmap_data, unstack, order_dates. simpl.
  rewrite merge_sort_Permutation, elem_of_remove_dups, activity_dates.
  rewrite !list_elem_of_fmap. split.
  - intros (k & -> & Hk). apply elem_of_group_keys in Hk as (r & Hr & <-).
    by exists r.
  - intros (r & -> & Hr). exists (date_category r). split; [done|].
    apply elem_of_group_keys. by exists r.
Qed.

Lemma elem_of_hm_columns (c : string) :
  c ∈ hm_columns (heatmap_data v) ↔ c ∈ order_categories v.
Proof.
  unfold heatmap_data, unstack, order_categories. simpl.
  rewrite merge_sort_Permutation, elem_of_remove_dups, activity_categories.
  rewrite !list_elem_of_fmap. split.
  - intros (k & -> & Hk). apply elem_of_group_keys in Hk as (r & Hr & <-).
    by exists r.
  - intros (r & -> & Hr). exists (date_category r). split; [done|].
    apply elem_of_group_keys. by exists r.
Qed.

Lemma hm_index_sorted : StronglySorted (strict Z.le) (hm_index (heatmap_data v)).
Proof. apply (group_keys_sorted Z.le (λ e : Z * string * nat, e.1.1)). Qed.

Lemma hm_columns_sorted :
  StronglySorted (strict String.le) (hm_columns (heatmap_data v)).
Proof. apply (group_keys_sorted String.le (λ e : Z * string * nat, e.1.2)). Qed.

Lemma NoDup_hm_index : NoDup (hm_index (heatmap_data v)).
Proof. apply (NoDup_group_keys Z.le (λ e : Z * string * nat, e.1.1)). Qed.

Lemma NoDup_hm_columns : NoDup (hm_columns (heatmap_data v)).
Proof. apply (NoDup_group_keys String.le (λ e : Z * string * nat, e.1.2)). Qed.

Lemma hm_values_cells :
  hm_values (heatmap_data v) =
  (λ d, (λ c, count_cell (orders_on v d c)) <$> hm_columns (heatmap_data v))
    <$> hm_index (heatmap_data v).
Proof.
  unfold heatmap_data, unstack. simpl.
  apply list_fmap_ext. intros _ d _. apply list_fmap_ext. intros _ c _.
  apply series_lookup_activity_sizes.
Qed.

Lemma default_count_cell (n : nat) : default 0%nat (count_cell n) = n.
Proof. unfold count_cell. by case_decide. Qed.

Lemma orders_on_by_date (d : Z) (c : string) :
  orders_on v d c =
  length (filter (λ r, product_category r = c)
            (filter (λ r, dt_date (order_purchase_timestamp r) = d) v)).
Proof.
  unfold orders_on. rewrite list_filter_filter. f_equal.
  apply list_filter_iff. intros r. unfold date_category.
  split; [by intros [= -> ->]|by intros [-> ->]].
Qed.

Lemma orders_on_by_category (d : Z) (c : string) :
  orders_on v d c =
  length (filter (λ r, dt_date (order_purchase_timestamp r) = d)
            (filter (λ r, product_category r = c) v)).
Proof.
  unfold orders_on. rewrite list_filter_filter. f_equal.
  apply list_filter_iff. intros r. unfold date_category.
  split; [by intros [= -> ->]|by intros [-> ->]].
Qed.

Lemma row_sums_heatmap_data :
  row_sums (heatmap_data v) = orders_on_date v <$> hm_index (heatmap_data v).
Proof.
  unfold row_sums. rewrite hm_values_cells at 1.
  rewrite <- list_fmap_compose. apply list_fmap_ext. intros _ d _. simpl.
  unfold nansum. rewrite <- list_fmap_compose.
  rewrite (list_fmap_ext _
    (λ c, length (filter (λ r, product_category r = c)
            (filter (λ r, dt_date (order_purchase_timestamp r) = d) v)))).
  - apply sum_group_sizes; [apply NoDup_hm_columns|].
    intros r [_ Hr]%list_elem_of_filter. apply elem_of_hm_columns.
    by apply list_elem_of_fmap_2.
  - intros _ c _. simpl. rewrite default_count_cell. apply orders_on_by_date.
Qed.

Lemma column_sums_heatmap_data :
  column_sums (heatmap_data v) =
  orders_of_category v <$> hm_columns (heatmap_data v).
Proof.
  unfold column_sums. apply list_eq. intros j.
  rewrite list_lookup_imap, list_lookup_fmap.
  destruct (hm_columns (heatmap_data v) !! j) as [c|] eqn:Hj; [|done].
  apply (f_equal Some). rewrite hm_values_cells.
  unfold nansum. rewrite <- !list_fmap_compose.
  rewrite (list_fmap_ext _
    (λ d, length (filter (λ r, dt_date (order_purchase_timestamp r) = d)
            (filter (λ r, product_category r = c) v)))).
  - apply sum_group_sizes; [apply NoDup_hm_index|].
    intros r [_ Hr]%list_elem_of_filter. apply elem_of_hm_index.
    unfold order_dates.
    by apply (list_elem_of_fmap_2 (λ r, dt_date (order_purchase_timestamp r))).
  - intros _ d _. unfold compose. rewrite list_lookup_fmap, Hj.
    etrans; [apply default_count_cell|]. apply orders_on_by_category.
Qed.
End heatmap_facts.

Lemma length_hm_index (v : list Order) :
  length (hm_index (heatmap_data v)) = length (remove_dups (order_dates v)).
Proof.
  apply Permutation_length, NoDup_Permutation;
    [apply NoDup_hm_index|apply NoDup_remove_dups|].
  intros d. by rewrite elem_of_hm_index, elem_of_remove_dups.
Qed.

Lemma length_hm_columns (v : list Order) :
  length (hm_columns (heatmap_data v)) =
  length (remove_dups (order_categories v)).
Proof.
  apply Permutation_length, NoDup_Permutation;
    [apply NoDup_hm_columns|apply NoDup_remove_dups|].
  intros c. by rewrite elem_of_hm_columns, elem_of_remove_dups.
Qed.

(** C6, as stated, fails on the frame with one order on each of two dates,
    in two categories: the cell of the first date and the second category,
    a pair without order, is missing, not 0. *)
Lemma heatmap_data_absent_not_zero :
  ¬ absent_cells_zero view_two_categories (heatmap_data view_two_categories).
Proof.
  intros Hzero.
  destruct (Hzero 0%nat 1%nat 19723 "furniture_decor")
    as (row & Hrow & Hcell); [reflexivity..|].
  vm_compute in Hrow. injection Hrow as <-. discriminate Hcell.
Qed.

(** C6, amended: [heatmap_data] is a grid with one row per distinct date and
    one column per distinct category of the frame, dates and categories in
    strictly ascending order; the cell of a date and a category holds the
    number of their orders, and is missing (NaN, not 0) when there is none;
    the sums over the present cells of a row and of a column are the numbers
    of orders of that date and of that category. *)
Theorem heatmap_data_grid (v : list Order) :
  let hm := heatmap_data v in
  (StronglySorted (strict Z.le) (hm_index hm) ∧
   (∀ d, d ∈ hm_index hm ↔ d ∈ order_dates v) ∧
   length (hm_index hm) = length (remove_dups (order_dates v))) ∧
  (StronglySorted (strict String.le) (hm_columns hm) ∧
   (∀ c, c ∈ hm_columns hm ↔ c ∈ order_categories v) ∧
   length (hm_columns hm) = length (remove_dups (order_categories v))) ∧
  hm_values hm =
    (λ d, (λ c, count_cell (orders_on v d c)) <$> hm_columns hm)
      <$> hm_index hm ∧
  row_sums hm = orders_on_date v <$> hm_index hm ∧
  column_sums hm = orders_of_category v <$> hm_columns hm.
Proof.
  intros hm. subst hm. repeat split.
  - apply hm_index_sorted.
  - by apply elem_of_hm_index.
  - by apply elem_of_hm_index.
  - apply length_hm_index.
  - apply hm_columns_sorted.
  - by apply elem_of_hm_columns.
  - by apply elem_of_hm_columns.
  - apply length_hm_columns.
  - apply hm_values_cells.
  - apply row_sums_heatmap_data.
  - apply column_sums_heatmap_data.
Qed.

(** The grid of the two-date frame. *)
Example heatmap_data_two_categories :
  heatmap_data view_two_categories =
  {| hm_index := [19723; 19754];
     hm_columns := ["electronics"; "furniture_decor"];
     hm_values := [[Some 1%nat; None]; [None; Some 1%nat]] |}.
Proof. vm_compute. reflexivity. Qed.


(** *** More on the recency column *)

Lemma series_max_spec (xs : list Z) (m : Z) :
  series_max xs = Some m → m ∈ xs ∧ ∀ x, x ∈ xs → x ≤ m.
Proof.
  destruct xs as [|x xs]; [done|]. intros [= <-].
  induction xs as [|y xs [IHin IHle]]; simpl.
  - split; [left|]. intros z ->%list_elem_of_singleton. lia.
  - split.
    + destruct (Z.max_spec y (foldr Z.max x xs)) as [[_ ->]|[_ ->]].
      * apply elem_of_cons in IHin as [->|?]; [left|right; by right].
      * right. left.
    + intros z Hz. assert (z = y ∨ z ∈ x :: xs) as [->|Hz'].
      { apply elem_of_cons in Hz as [->|Hz]; [right; left|].
        apply elem_of_cons in Hz as [->|Hz]; [by left|right; by right]. }
      * lia.
      * specialize (IHle z Hz'). lia.
Qed.

Lemma series_max_is_Some (xs : list Z) : xs ≠ [] → is_Some (series_max xs).
Proof. destruct xs; [done|]. by eexists. Qed.

Lemma recency_series_customers (df : list RawOrder) :
  recency_series df = customer_recency df <$> sorted_customers df.
Proof.
  unfold recency_series, last_purchase_date, sorted_customers.
  by rewrite groupby_agg_fmap, <- list_fmap_compose.
Qed.

Lemma elem_of_sorted_customers (df : list RawOrder) (c : string) :
  c ∈ sorted_customers df ↔ c ∈ raw_customer_unique_id <$> df.
Proof.
  unfold sorted_customers. rewrite elem_of_group_keys, list_elem_of_fmap.
  split; intros (r & H1 & H2); eauto.
Qed.

(** The recency of a customer of the file is the whole number of days from
    the customer's latest purchase to the latest purchase of the file. *)
Lemma customer_recency_spec (df : list RawOrder) (c : string) :
  c ∈ raw_customer_unique_id <$> df →
  ∃ m l : Z,
    max_purchase_date df = Some m ∧
    series_max (raw_order_purchase_timestamp <$>
                  group_rows raw_customer_unique_id df c) = Some l ∧
    l ≤ m ∧
    customer_recency df c = Some (dt_days (m - l)).
Proof.
  intros (r & -> & Hr)%list_elem_of_fmap.
  assert (r ∈ group_rows raw_customer_unique_id df (raw_customer_unique_id r))
    as Hg by (by apply list_elem_of_filter).
  destruct (series_max_is_Some (raw_order_purchase_timestamp <$> df))
    as [m Hm].
  { intros Hnil%fmap_nil_inv. rewrite Hnil in Hr. by apply not_elem_of_nil in Hr. }
  destruct (series_max_is_Some (raw_order_purchase_timestamp <$>
    group_rows raw_customer_unique_id df (raw_customer_unique_id r)))
    as [l Hl].
  { intros Hnil%fmap_nil_inv. rewrite Hnil in Hg. by apply not_elem_of_nil in Hg. }
  exists m, l. split; [done|]. split; [done|]. split.
  - apply series_max_spec in Hm as [_ Hle]. apply series_max_spec in Hl as [Hin _].
    apply Hle. apply list_elem_of_fmap in Hin as (r' & -> & Hr').
    apply list_elem_of_filter in Hr' as [_ Hr']. by apply list_elem_of_fmap_2.
  - unfold customer_recency, max_purchase_date. rewrite Hm. simpl.
    rewrite Hl. done.
Qed.



Lemma recency_series_checked_Ok (df : list RawOrder) (s : list (option Z)) :
  recency_series_checked df = Ok s → s = recency_series df.
Proof. unfold recency_series_checked. case_decide; congruence. Qed.

(** The subtraction of line 13 raises on two orders more than 2^63
    nanoseconds apart. *)
Example recency_series_checked_far_apart :
  recency_series_checked orders_far_apart = Raise OverflowError.
Proof. vm_compute. reflexivity. Qed.



Lemma load_data_indexed_Ok (frame : list (Z * RawOrder))
    (loaded : list (Z * Order)) :
  load_data_indexed frame = Ok loaded →
  loaded =
    (λ p, (p.1, with_recency p.2 (series_at (recency_series frame.*2) p.1)))
      <$> frame.
Proof.
  unfold load_data_indexed.
  destruct (recency_series_checked frame.*2) as [s|e] eqn:Hs; [|done].
  apply recency_series_checked_Ok in Hs as ->. congruence.
Qed.







Section sorted_once.
Context {K : Type} `{EqDecision K}.
Context (R : relation K) `{!∀ x y, Decision (R x y)}.
Context `{!PartialOrder R, !Total R}.

Lemma remove_dups_NoDup (l : list K) : NoDup l → remove_dups l = l.
Proof.
  induction 1 as [|x l Hx Hnd IH]; [done|].
  simpl. destruct (decide_rel elem_of x l); [done|]. by rewrite IH.
Qed.


End sorted_once.

Lemma default_index_rows (df : list RawOrder) : (default_index df).*2 = df.
Proof.
  unfold default_index. apply list_eq. intros i.
  rewrite list_lookup_fmap, list_lookup_imap. by destruct (df !! i).
Qed.


(** On a file stored with the default index, [load_data_indexed] returns
    the rows of [load_data]. *)
Lemma load_data_indexed_default (df : list RawOrder)
    (loaded : list (Z * Order)) :
  load_data_indexed (default_index df) = Ok loaded →
  loaded.*2 = load_data df.
Proof.
  intros ->%load_data_indexed_Ok. rewrite default_index_rows.
  unfold load_data, setitem_recency, default_index. apply list_eq. intros i.
  rewrite !list_lookup_fmap, !list_lookup_imap.
  destruct (df !! i) as [raw|]; [|done]. simpl. unfold series_at.
  rewrite decide_True by lia. by rewrite Nat2Z.id.
Qed.



(** X5: when all orders of the file carry the same timestamp, every entry
    of the per-customer Series is 0. *)
Theorem recency_series_one_timestamp (df : list RawOrder) (t : Z) :
  (∀ r, r ∈ df → raw_order_purchase_timestamp r = t) →
  Forall (λ o, o = Some 0) (recency_series df).
Proof.
  intros Hts. rewrite recency_series_customers.
  apply Forall_fmap, Forall_forall. intros c Hc%elem_of_sorted_customers.
  destruct (customer_recency_spec df c Hc) as (m & l & Hm & Hl & _ & Hrec).
  unfold compose. rewrite Hrec.
  apply series_max_spec in Hm as [(rm & -> & Hrm)%list_elem_of_fmap _].
  apply series_max_spec in Hl as [(rl & -> & Hrl)%list_elem_of_fmap _].
  apply list_elem_of_filter in Hrl as [_ Hrl].
  rewrite (Hts rm Hrm), (Hts rl Hrl), Z.sub_diag. done.
Qed.

Lemma recency_series_one_timestamp_witness :
  (∀ r, r ∈ orders_one_timestamp →
        raw_order_purchase_timestamp r = to_datetime 19723) ∧
  Forall (λ o, o = Some 0) (recency_series orders_one_timestamp).
Proof.
  assert (∀ r, r ∈ orders_one_timestamp →
               raw_order_purchase_timestamp r = to_datetime 19723) as Hts.
  { intros r Hr. unfold orders_one_timestamp in Hr.
    repeat (apply elem_of_cons in Hr as [->|Hr]; [reflexivity|]).
    by apply not_elem_of_nil in Hr. }
  split; [exact Hts|].
  apply (recency_series_one_timestamp orders_one_timestamp (to_datetime 19723) Hts).
Defined.

(** *** More on the filter *)

Lemma elem_of_filtered_df (df : list Order) (sel : Selection) (r : Order) :
  r ∈ filtered_df df sel ↔
  r ∈ df ∧ in_date_range (date_range sel) r ∧
  isin (sel_product_category sel) (product_category r).
Proof.
  unfold filtered_df. rewrite !list_elem_of_filter. tauto.
Qed.

(** X6: a date range whose end lies before its start gives an empty orders
    frame; no exception is raised. *)
Theorem filtered_df_reversed_range (df : list Order) (sel : Selection) :
  (date_range sel).2 < (date_range sel).1 → filtered_df df sel = [].
Proof.
  intros Hrev. rewrite filtered_df_as_one_filter. apply filter_none.
  intros r [_ [Hlo Hhi]]. unfold to_datetime, ns_per_day in *. nia.
Qed.

Lemma filtered_df_reversed_range_witness :
  (date_range select_reversed_range).2 < (date_range select_reversed_range).1 ∧
  filtered_df (load_data orders_three_customers) select_reversed_range = [].
Proof.
  split; [reflexivity|].
  apply (filtered_df_reversed_range (load_data orders_three_customers)
           select_reversed_range).
  reflexivity.
Defined.

(** X7: the filtered frames are sub-lists of the loaded ones: the filter
    never adds, duplicates, changes or reorders a row. *)
Theorem filtered_frames_sublist (df : list Order) (customer_df : list Customer)
    (sel : Selection) :
  filtered_df df sel `sublist_of` df ∧
  filtered_customer_df customer_df sel `sublist_of` customer_df.
Proof.
  split.
  - unfold filtered_df. etrans; apply sublist_filter.
  - apply sublist_filter.
Qed.

(** X8: widening the selection never loses a row: with a date range that
    contains the first one and a category list that contains the first one,
    the first filtered frame is a sub-list of the second. *)
Theorem filtered_df_monotone (df : list Order) (sel1 sel2 : Selection) :
  (date_range sel2).1 ≤ (date_range sel1).1 →
  (date_range sel1).2 ≤ (date_range sel2).2 →
  sel_product_category sel1 ⊆ sel_product_category sel2 →
  filtered_df df sel1 `sublist_of` filtered_df df sel2.
Proof.
  intros Hlo Hhi Hcat. rewrite !filtered_df_as_one_filter.
  rewrite <- (list_filter_filter_l _
    (λ r, isin (sel_product_category sel2) (product_category r) ∧
          in_date_range (date_range sel2) r)).
  - apply sublist_filter.
  - intros r [Hin [Hl Hh]]. split; [by apply Hcat|].
    unfold in_date_range, to_datetime, ns_per_day in *. lia.
Qed.

Lemma filtered_df_monotone_witness :
  (date_range select_default_range).1 ≤ (date_range select_electronics).1 ∧
  (date_range select_electronics).2 ≤ (date_range select_default_range).2 ∧
  sel_product_category select_electronics ⊆
    sel_product_category select_default_range ∧
  filtered_df (load_data orders_three_customers) select_electronics
    `sublist_of`
  filtered_df (load_data orders_three_customers) select_default_range.
Proof.
  assert (sel_product_category select_electronics ⊆
          sel_product_category select_default_range) as Hcat.
  { intros c Hc. apply list_elem_of_singleton in Hc as ->. left. }
  split; [by vm_compute|]. split; [by vm_compute|]. split; [exact Hcat|].
  apply (filtered_df_monotone (load_data orders_three_customers)
           select_electronics select_default_range);
    [by vm_compute|by vm_compute|exact Hcat].
Defined.

Lemma to_datetime_dt_date_le (ts : Z) : to_datetime (dt_date ts) ≤ ts.
Proof.
  unfold to_datetime, dt_date, ns_per_day.
  pose proof (Z.mul_div_le ts (86400 * 1000000000)). lia.
Qed.

Lemma to_datetime_dt_date_lt (ts : Z) :
  ts `mod` ns_per_day ≠ 0 → to_datetime (dt_date ts) < ts.
Proof.
  unfold to_datetime, dt_date, ns_per_day. intros Hmod.
  pose proof (Z.div_mod ts (86400 * 1000000000)).
  pose proof (Z.mod_pos_bound ts (86400 * 1000000000)). lia.
Qed.

(** X9: the end of the range is the midnight that opens the end date: an
    order of the end date is kept only when it was placed at midnight. *)
Theorem filtered_df_end_date_midnight (df : list Order) (sel : Selection)
    (r : Order) :
  r ∈ filtered_df df sel →
  dt_date (order_purchase_timestamp r) = (date_range sel).2 →
  order_purchase_timestamp r = to_datetime (date_range sel).2.
Proof.
  intros (_ & [_ Hhi] & _)%elem_of_filtered_df Hdate.
  pose proof (to_datetime_dt_date_le (order_purchase_timestamp r)) as Hle.
  rewrite Hdate in Hle. lia.
Qed.

Lemma filtered_df_end_date_midnight_witness :
  mkOrder "B" (to_datetime 19754) "furniture_decor" "furniture_decor" 700
    (Some 0) ∈ filtered_df view_two_categories select_default_range ∧
  dt_date (to_datetime 19754) = (date_range select_default_range).2 ∧
  to_datetime 19754 = to_datetime (date_range select_default_range).2.
Proof.
  assert (mkOrder "B" (to_datetime 19754) "furniture_decor" "furniture_decor"
            700 (Some 0) ∈ filtered_df view_two_categories select_default_range)
    as Hin.
  { vm_compute. right. left. }
  split; [exact Hin|]. split; [reflexivity|].
  apply (filtered_df_end_date_midnight view_two_categories
           select_default_range _ Hin).
  reflexivity.
Defined.

(** X10: under the default date range of the date picker the latest order
    of the frame is filtered out, unless it was placed at midnight. *)
Theorem default_date_range_drops_latest (df : list Order) (sel : Selection)
    (r : Order) (m : Z) :
  default_date_range df = Some (date_range sel) →
  series_max (order_purchase_timestamp <$> df) = Some m →
  order_purchase_timestamp r = m →
  m `mod` ns_per_day ≠ 0 →
  r ∉ filtered_df df sel.
Proof.
  unfold default_date_range. intros Hdef Hmax Hr Hmod.
  rewrite Hmax in Hdef.
  destruct (series_min (order_purchase_timestamp <$> df)) as [lo|];
    simplify_eq/=.
  intros (_ & [_ Hhi] & _)%elem_of_filtered_df.
  rewrite <- Hdef in Hhi. simpl in Hhi.
  pose proof (to_datetime_dt_date_lt _ Hmod). lia.
Qed.

Lemma default_date_range_drops_latest_witness :
  default_date_range (load_data orders_sorted_customers) =
    Some (date_range select_default_range) ∧
  series_max (order_purchase_timestamp <$> load_data orders_sorted_customers) =
    Some (to_datetime 19754 + 3600000000000) ∧
  (to_datetime 19754 + 3600000000000) `mod` ns_per_day ≠ 0 ∧
  mkOrder "C" (to_datetime 19754 + 3600000000000) "health_beauty"
    "health_beauty" 20 (Some 0)
    ∉ filtered_df (load_data orders_sorted_customers) select_default_range.
Proof.
  split; [vm_compute; reflexivity|]. split; [vm_compute; reflexivity|].
  split; [by vm_compute|].
  apply (default_date_range_drops_latest (load_data orders_sorted_customers)
           select_default_range _ (to_datetime 19754 + 3600000000000));
    [vm_compute; reflexivity|vm_compute; reflexivity|reflexivity|by vm_compute].
Defined.

(** *** More on the key metrics *)

Lemma length_remove_dups_le {A : Type} `{EqDecision A} (l : list A) :
  (length (remove_dups l) ≤ length l)%nat.
Proof.
  apply submseteq_length, NoDup_submseteq; [apply NoDup_remove_dups|].
  intros x. by rewrite elem_of_remove_dups.
Qed.

(** X11: the number of customers of a frame is at most its number of rows,
    and it is 0 only for the empty frame. *)
Theorem total_customers_bounds (v : list Order) :
  (total_customers v ≤ length v)%nat ∧ (total_customers v = 0%nat ↔ v = []).
Proof.
  split; [|apply total_customers_nil_iff].
  unfold total_customers, nunique.
  etrans; [apply length_remove_dups_le|]. by rewrite length_fmap.
Qed.

(** X12: the churn rate raises [ZeroDivisionError] on the empty frame and
    on no other frame. *)
Theorem churn_rate_raises_iff (v : list Order) (t : Z) :
  churn_rate v t = Raise ZeroDivisionError ↔ v = [].
Proof.
  split; [|by intros ->].
  intros Hraise. apply total_customers_nil_iff.
  destruct (decide (total_customers v = 0%nat)) as [|Hn]; [done|].
  by rewrite churn_rate_value in Hraise.
Qed.

Section rate_facts.
Local Open Scope Q_scope.

Lemma inject_nat_pos (b : nat) : b ≠ 0%nat → 0 < inject_Z (Z.of_nat b).
Proof.
  intros Hb. change 0 with (inject_Z 0). rewrite <- Zlt_Qlt. lia.
Qed.

Lemma inject_nat_le (a b : nat) :
  (a ≤ b)%nat → inject_Z (Z.of_nat a) <= inject_Z (Z.of_nat b).
Proof. intros Hab. rewrite <- Zle_Qle. lia. Qed.

Lemma rate_antitone (a1 a2 b : nat) :
  b ≠ 0%nat → (a2 ≤ a1)%nat →
  inject_Z (Z.of_nat a2) / inject_Z (Z.of_nat b) * 100 <=
  inject_Z (Z.of_nat a1) / inject_Z (Z.of_nat b) * 100.
Proof.
  intros Hb Ha. apply Qmult_le_compat_r; [|done].
  unfold Qdiv. apply Qmult_le_compat_r; [by apply inject_nat_le|].
  apply Qinv_le_0_compat, Qlt_le_weak, inject_nat_pos, Hb.
Qed.

Lemma rate_bounds (a b : nat) :
  b ≠ 0%nat → (a ≤ b)%nat →
  0 <= inject_Z (Z.of_nat a) / inject_Z (Z.of_nat b) * 100 <= 100.
Proof.
  intros Hb Ha. pose proof (inject_nat_pos b Hb) as Hpos. split.
  - apply Qmult_le_0_compat; [|done].
    apply Qle_shift_div_l; [done|]. rewrite Qmult_0_l.
    change 0 with (inject_Z (Z.of_nat 0)). apply inject_nat_le. lia.
  - change 100 with (1 * 100) at 2. apply Qmult_le_compat_r; [|done].
    apply Qle_shift_div_r; [done|]. rewrite Qmult_1_l.
    by apply inject_nat_le.
Qed.
End rate_facts.

(** X13: on a frame in which every customer has one row the churn rate is
    between 0 and 100. *)
Theorem churn_rate_one_row_per_customer (v : list Order) (t : Z) (q : Q) :
  NoDup (customer_unique_id <$> v) →
  churn_rate v t = Ok q →
  (0 <= q <= 100)%Q.
Proof.
  intros Hnd Hq.
  assert (total_customers v = length v) as Htotal.
  { unfold total_customers, nunique.
    by rewrite (remove_dups_NoDup (customer_unique_id <$> v) Hnd), length_fmap. }
  destruct (decide (total_customers v = 0%nat)) as [Hz|Hnz].
  { by rewrite churn_rate_no_customers in Hq. }
  rewrite churn_rate_value in Hq by done. injection Hq as <-.
  apply rate_bounds; [done|]. rewrite Htotal. apply length_filter.
Qed.

Lemma churn_rate_one_row_per_customer_witness :
  NoDup (customer_unique_id <$> view_two_categories) ∧
  churn_rate view_two_categories 30 = Ok (100 # 2)%Q ∧
  (0 <= 100 # 2 <= 100)%Q.
Proof.
  assert (NoDup (customer_unique_id <$> view_two_categories)) as Hnd.
  { apply (bool_decide_unpack _). by vm_compute. }
  split; [exact Hnd|]. split; [vm_compute; reflexivity|].
  apply (churn_rate_one_row_per_customer view_two_categories 30 (100 # 2) Hnd).
  vm_compute. reflexivity.
Defined.

Lemma length_filter_impl {A : Type} (P1 P2 : A → Prop)
    `{!∀ x, Decision (P1 x), !∀ x, Decision (P2 x)} (l : list A) :
  (∀ x, P1 x → P2 x) → (length (filter P1 l) ≤ length (filter P2 l))%nat.
Proof.
  intros Himpl. rewrite <- (list_filter_filter_l P1 P2) by done.
  apply length_filter.
Qed.

(** X14: raising the churn threshold never raises the churn rate. *)
Theorem churn_rate_antitone (v : list Order) (t1 t2 : Z) (q1 q2 : Q) :
  t1 ≤ t2 →
  churn_rate v t1 = Ok q1 →
  churn_rate v t2 = Ok q2 →
  (q2 <= q1)%Q.
Proof.
  intros Ht Hq1 Hq2.
  destruct (decide (total_customers v = 0%nat)) as [Hz|Hnz].
  { by rewrite churn_rate_no_customers in Hq1. }
  rewrite churn_rate_value in Hq1, Hq2 by done.
  injection Hq1 as <-. injection Hq2 as <-.
  apply rate_antitone; [done|]. apply length_filter_impl.
  intros r. unfold recency_gt. destruct (recency r); [lia|done].
Qed.

Lemma churn_rate_antitone_witness :
  30 ≤ 180 ∧
  churn_rate view_two_categories 30 = Ok (100 # 2)%Q ∧
  churn_rate view_two_categories 180 = Ok (0 # 2)%Q ∧
  (0 # 2 <= 100 # 2)%Q.
Proof.
  split; [lia|]. split; [vm_compute; reflexivity|].
  split; [vm_compute; reflexivity|].
  apply (churn_rate_antitone view_two_categories 30 180 (100 # 2) (0 # 2));
    [lia|vm_compute; reflexivity|vm_compute; reflexivity].
Defined.

(** *** Activity totals *)

(** X16: the cells of [heatmap_data] count every row of the frame once: the
    row sums and the column sums both add up to the number of rows. *)
Theorem heatmap_data_total (v : list Order) :
  sum_list (row_sums (heatmap_data v)) = length v ∧
  sum_list (column_sums (heatmap_data v)) = length v.
Proof.
  rewrite row_sums_heatmap_data, column_sums_heatmap_data. split.
  - apply (sum_group_sizes (λ r, dt_date (order_purchase_timestamp r)));
      [apply NoDup_hm_index|].
    intros r Hr. apply elem_of_hm_index.
    by apply (list_elem_of_fmap_2 (λ r, dt_date (order_purchase_timestamp r))).
  - apply (sum_group_sizes product_category); [apply NoDup_hm_columns|].
    intros r Hr. apply elem_of_hm_columns. by apply list_elem_of_fmap_2.
Qed.

(** *** The churn risk column *)

Lemma churn_risk_high (t : Z) (r : Order) :
  churn_risk t (recency r) = "High Risk" ↔ recency_gt t r.
Proof.
  unfold churn_risk, recency_gt. destruct (recency r) as [d|].
  - case_decide; split; (done || lia).
  - split; done.
Qed.

Lemma churn_risk_low (t : Z) (r : Order) :
  churn_risk t (recency r) = "Low Risk" ↔ ¬ recency_gt t r.
Proof.
  unfold churn_risk, recency_gt. destruct (recency r) as [d|].
  - case_decide; split; (done || (intros; lia) || tauto).
  - split; [tauto|done].
Qed.

(** X18: row by row, the churn risk column holds "High Risk" exactly when
    the row has a recency above the threshold and "Low Risk" otherwise, so a
    row without recency is "Low Risk"; the "High Risk" rows are the rows
    counted by the churn rate, and the two counts add up to the number of
    rows. *)
Theorem churn_risk_column_counts (v : list Order) (t : Z) :
  Forall2 (λ r l,
      (l = "High Risk" ↔ ∃ d, recency r = Some d ∧ t < d) ∧
      (l = "High Risk" ∨ l = "Low Risk") ∧
      (recency r = None → l = "Low Risk"))
    v (churn_risk_column v t) ∧
  value_count (churn_risk_column v t) "High Risk" = churned_rows v t ∧
  (value_count (churn_risk_column v t) "High Risk" +
   value_count (churn_risk_column v t) "Low Risk" = length v)%nat.
Proof.
  split.
  - unfold churn_risk_column. apply Forall2_fmap_r, Forall_Forall2_diag.
    apply Forall_forall. intros r _. unfold compose, churn_risk. cbv beta.
    destruct (recency r) as [d|]; [destruct (decide (t < d))|].
    + split; [split; [eauto|done]|]. split; [by left|done].
    + split; [split; [done|intros (d' & [= <-] & ?); lia]|].
      split; [by right|done].
    + split; [split; [done|by intros (d' & ? & _)]|]. split; [by right|done].
  - unfold churn_risk_column, value_count, churned_rows.
    induction v as [|r v [IHhigh IHsum]]; [done|].
    rewrite fmap_cons, !filter_cons.
    destruct (decide (recency_gt t r)) as [Hgt|Hgt].
    + pose proof (proj2 (churn_risk_high t r) Hgt) as Hlabel. rewrite Hlabel.
      rewrite decide_True, decide_False by done. simpl.
      split; [by rewrite IHhigh|by rewrite <- IHsum].
    + pose proof (proj2 (churn_risk_low t r) Hgt) as Hlabel. rewrite Hlabel.
      rewrite decide_False, decide_True by done. simpl.
      split; [done|rewrite <- IHsum; lia].
Qed.

(** *** More on the top category *)

(** X19: the top category raises [KeyError] on the empty frame and on no
    other frame. *)
Theorem top_category_raises_iff (v : list Order) :
  top_category v = Raise KeyError ↔ v = [].
Proof.
  split; [|by intros ->].
  unfold top_category, series_getitem0. intros Hraise.
  destruct (series_mode (product_category <$> v)) as [|c modes] eqn:Hmode;
    [|done].
  destruct v as [|r v]; [done|]. by apply series_mode_nonempty in Hmode.
Qed.

(** *** The default of the segment multiselect *)

Lemma elem_of_unique (xs : list string) (x : string) : x ∈ unique xs ↔ x ∈ xs.
Proof.
  induction xs as [|y xs IH]; [done|]. simpl.
  rewrite !elem_of_cons, list_elem_of_filter, IH.
  destruct (decide (x = y)); tauto.
Qed.

(** X20: whatever segments the customer file holds, the default of the
    segment multiselect is a non-empty part of the two default segments, all
    of whose entries are options of the widget, and it keeps every default
    segment that occurs in the file. *)
Theorem segment_default_valid (customer_df : list Customer) :
  segment_default customer_df ≠ [] ∧
  segment_default customer_df `sublist_of` default_segments ∧
  segment_default customer_df ⊆ grouped_segments ∧
  (∀ seg, seg ∈ default_segments → seg ∈ segment <$> customer_df →
          seg ∈ segment_default customer_df).
Proof.
  assert (segment_default customer_df `sublist_of` default_segments) as Hsub.
  { unfold segment_default.
    destruct (valid_default_segments customer_df) as [|seg valid] eqn:Hvalid;
      [done|].
    rewrite <- Hvalid. apply sublist_filter. }
  split; [|split; [done|split]].
  - unfold segment_default.
    by destruct (valid_default_segments customer_df).
  - intros seg Hseg. apply (elem_of_sublist _ _ _ Hseg) in Hsub.
    unfold default_segments in Hsub.
    repeat (apply elem_of_cons in Hsub as [->|Hsub]);
      [by left|by right; left|by apply not_elem_of_nil in Hsub].
  - intros seg Hseg Hin%elem_of_unique.
    unfold segment_default, valid_default_segments.
    fold (segment_options customer_df) in Hin.
    destruct (filter (λ seg, seg ∈ segment_options customer_df) default_segments)
      as [|seg' valid] eqn:Hvalid.
    + assert (seg ∈ filter (λ seg, seg ∈ segment_options customer_df)
                default_segments) as Hf by (by apply list_elem_of_filter).
      rewrite Hvalid in Hf. by apply not_elem_of_nil in Hf.
    + rewrite <- Hvalid. by apply list_elem_of_filter.
Qed.

(** *** The loaded frame and the charts together *)

(** X22: the top category has the largest column sum of [heatmap_data]. *)
Theorem top_category_largest_column (v : list Order) (c : string) :
  top_category v = Ok c →
  Forall (λ n, n ≤ orders_of_category v c)%nat (column_sums (heatmap_data v)).
Proof.
  unfold top_category, series_getitem0. intros Htop.
  destruct (series_mode (product_category <$> v)) as [|c0 modes] eqn:Hmode;
    simplify_eq/=.
  assert (c ∈ series_mode (product_category <$> v)) as Hc
    by (rewrite Hmode; left).
  apply elem_of_series_mode in Hc as [_ Hmax].
  rewrite column_sums_heatmap_data. apply Forall_fmap, Forall_forall.
  intros c' _. unfold compose.
  rewrite !orders_of_category_value_count, Hmax. apply value_count_le_max.
Qed.

Lemma top_category_largest_column_witness :
  top_category view_tied_categories = Ok "electronics" ∧
  Forall (λ n, n ≤ orders_of_category view_tied_categories "electronics")%nat
    (column_sums (heatmap_data view_tied_categories)).
Proof.
  split; [vm_compute; reflexivity|].
  apply (top_category_largest_column view_tied_categories "electronics").
  vm_compute. reflexivity.
Defined.
